(** * ofrak_patch_maker.model: the PatchMaker data model

    A shallow embedding of [ofrak_patch_maker/model.py].  The module
    declares five frozen dataclasses ([AssembledObject], [LinkedExecutable],
    [PatchRegionConfig], [FEM], [BOM]), one exception class and one enum.
    Python mappings with string keys are [gmap string _], Python sets of
    strings are [gset string], tuples are lists, [Optional] is [option] and
    [int] is [Z].  Construction runs in a small monad that keeps the log of
    [warnings.warn] calls next to the exception-or-value outcome. *)

From stdpp Require Import gmap strings list fin_maps.
From Stdlib Require Import ZArith Lia.

Open Scope string_scope.
Open Scope list_scope.
Open Scope Z_scope.

(** ** Exceptions, warnings and the construction monad *)

(** Modelled from the spec: the kinds of [PatchMakerException] the pipeline
    stages raise (section 7 of the spec; the stages themselves are not part of
    [model.py], which only declares the base class). *)
Inductive PatchMakerError : Type :=
  | EmptyObjectMap
  | SymbolConflictError
  | RegionOverflowError (region : string) (segment : string).

(** [TypeError] is what a call with a missing required argument raises,
    [FrozenInstanceError] is what the [__setattr__] and [__delattr__] of a
    [dataclass(frozen=True)] raise, [PatchMakerException] is line 24. *)
Inductive exn : Type :=
  | TypeError (msg : string)
  | FrozenInstanceError (msg : string)
  | PatchMakerException (kind : PatchMakerError).

Inductive WarningCategory : Type := UserWarning | DeprecationWarning.

Record Warning : Type := mkWarning {
  category : WarningCategory;
  message : string
}.

Module Py.

(** A computation logs warnings and ends in an exception or a value. *)
Definition t (A : Type) : Type := list Warning * (exn + A).

Definition ret {A} (a : A) : t A := ([], inr a).

Definition raise {A} (e : exn) : t A := ([], inl e).

Definition bind {A B} (m : t A) (k : A -> t B) : t B :=
  match m with
  | (ws, inl e) => (ws, inl e)
  | (ws, inr a) => let '(ws', r) := k a in (ws ++ ws', r)
  end.

(** [warnings.warn(message)]: the category defaults to [UserWarning]; the
    warning is reported and control returns to the caller, as it does unless
    the program has installed a filter that turns warnings into errors. *)
Definition warn (msg : string) : t unit :=
  ([mkWarning UserWarning msg], inr tt).

Definition warnings {A} (m : t A) : list Warning := fst m.
Definition outcome {A} (m : t A) : exn + A := snd m.

Definition returns {A} (m : t A) (a : A) : Prop := outcome m = inr a.

End Py.

Notation "x <- m ;; k" := (Py.bind m (fun x => k))
  (at level 100, m at next level, right associativity).

(** ** Imported types *)

(** Modelled from the spec: [BinFileType] of [ofrak_patch_maker.toolchain.model],
    the tag of the container format of a compiled artifact. *)
Inductive BinFileType : Type := ELF | COFF.

(** Modelled from the spec: [LinkableSymbolType] of [ofrak_type.symbol_type],
    the classification of a symbol (function, object/data, absolute). *)
Inductive LinkableSymbolType : Type := FUNC | OBJECT | ABSOLUTE.

(** Modelled from the spec: access attributes of a [Segment]. *)
Inductive MemoryPermissions : Type := R | RW | RX | RWX.

(** Modelled from the spec: [Segment] of [ofrak_patch_maker.toolchain.model],
    a named contiguous memory region with an address, a size and access
    attributes. *)
Record Segment : Type := mkSegment {
  segment_name : string;
  vm_address : Z;
  seg_length : Z;
  access_perms : MemoryPermissions
}.

#[global] Instance BinFileType_eq_dec : EqDecision BinFileType.
Proof. solve_decision. Defined.
#[global] Instance LinkableSymbolType_eq_dec : EqDecision LinkableSymbolType.
Proof. solve_decision. Defined.
#[global] Instance MemoryPermissions_eq_dec : EqDecision MemoryPermissions.
Proof. solve_decision. Defined.
#[global] Instance Segment_eq_dec : EqDecision Segment.
Proof. solve_decision. Defined.
#[global] Instance WarningCategory_eq_dec : EqDecision WarningCategory.
Proof. solve_decision. Defined.
#[global] Instance Warning_eq_dec : EqDecision Warning.
Proof. solve_decision. Defined.

(** [Mapping[str, Tuple[int, LinkableSymbolType]]] *)
Abbreviation SymbolMap := (gmap string (Z * LinkableSymbolType)).

(** ** The dataclasses *)

(** [AssembledObject], lines 28-46. *)
Record AssembledObject : Type := mkAssembledObject {
  ao_path : string;
  ao_file_format : BinFileType;
  segment_map : gmap string Segment;
  strong_symbols : SymbolMap;
  unresolved_symbols : SymbolMap;
  ao_bss_size_required : option Z
}.

(** [LinkedExecutable], lines 53-69. *)
Record LinkedExecutable : Type := mkLinkedExecutable {
  le_path : string;
  le_file_format : BinFileType;
  le_segments : list Segment;
  symbols : SymbolMap;
  relocatable : bool
}.

(** [PatchRegionConfig], lines 72-89. *)
Record PatchRegionConfig : Type := mkPatchRegionConfig {
  patch_name : string;
  prc_segments : gmap string (list Segment)
}.

(** [FEM], lines 92-107. *)
Record FEM : Type := mkFEM {
  fem_name : string;
  executable : LinkedExecutable
}.

(** [BOM], lines 110-132. *)
Record BOM : Type := mkBOM {
  bom_name : string;
  object_map : gmap string AssembledObject;
  bom_unresolved_symbols : gset string;
  bom_bss_size_required : option Z;
  entry_point_symbol : option string;
  segment_alignment : Z
}.

(** [SourceFileType], lines 139-142. *)
Inductive SourceFileType : Type := DEFAULT | C | ASM.

Definition SourceFileType_value (t : SourceFileType) : Z :=
  match t with DEFAULT => 0 | C => 1 | ASM => 2 end.

#[global] Instance AssembledObject_eq_dec : EqDecision AssembledObject.
Proof. solve_decision. Defined.
#[global] Instance LinkedExecutable_eq_dec : EqDecision LinkedExecutable.
Proof. solve_decision. Defined.
#[global] Instance PatchRegionConfig_eq_dec : EqDecision PatchRegionConfig.
Proof. solve_decision. Defined.
#[global] Instance FEM_eq_dec : EqDecision FEM.
Proof. solve_decision. Defined.
#[global] Instance BOM_eq_dec : EqDecision BOM.
Proof. solve_decision. Defined.

(** ** Construction

    [dataclass] generates an [__init__] that takes the fields in declaration
    order, stores them, and then calls [__post_init__].  A field with a
    default may be left out of the call; a required one may not. *)

Inductive Arg (A : Type) : Type :=
  | Omitted
  | Passed (a : A).
Arguments Omitted {A}.
Arguments Passed {A} a.

(** Lines 48-50. *)
Definition AssembledObject___post_init__ (self : AssembledObject) : Py.t unit :=
  match ao_bss_size_required self with
  | Some _ => Py.warn "AssembledObject.bss_size_required is deprecated"
  | None => Py.ret tt
  end.

(** [bss_size_required: Optional[int] = None], line 46. *)
Definition AssembledObject___init__
    (path : string) (file_format : BinFileType)
    (segment_map : gmap string Segment)
    (strong_symbols unresolved_symbols : SymbolMap)
    (bss_size_required : Arg (option Z)) : Py.t AssembledObject :=
  let self :=
    {| ao_path := path;
       ao_file_format := file_format;
       segment_map := segment_map;
       strong_symbols := strong_symbols;
       unresolved_symbols := unresolved_symbols;
       ao_bss_size_required :=
         match bss_size_required with
         | Omitted => None
         | Passed v => v
         end |} in
  _ <- AssembledObject___post_init__ self ;;
  Py.ret self.

Definition LinkedExecutable___init__
    (path : string) (file_format : BinFileType) (segments : list Segment)
    (symbols : SymbolMap) (relocatable : bool) : Py.t LinkedExecutable :=
  Py.ret (mkLinkedExecutable path file_format segments symbols relocatable).

Definition PatchRegionConfig___init__
    (patch_name : string) (segments : gmap string (list Segment))
    : Py.t PatchRegionConfig :=
  Py.ret (mkPatchRegionConfig patch_name segments).

Definition FEM___init__ (name : string) (executable : LinkedExecutable)
    : Py.t FEM :=
  Py.ret (mkFEM name executable).

(** Lines 134-136. *)
Definition BOM___post_init__ (self : BOM) : Py.t unit :=
  match bom_bss_size_required self with
  | Some _ => Py.warn "BOM.bss_size_required is deprecated"
  | None => Py.ret tt
  end.

(** [bss_size_required: Optional[int]], line 130, has no default: a call that
    leaves it out is rejected before any field is stored. *)
Definition BOM___init__
    (name : string) (object_map : gmap string AssembledObject)
    (unresolved_symbols : gset string)
    (bss_size_required : Arg (option Z))
    (entry_point_symbol : option string)
    (segment_alignment : Z) : Py.t BOM :=
  match bss_size_required with
  | Omitted =>
      Py.raise (TypeError
        "__init__() missing 1 required positional argument: 'bss_size_required'")
  | Passed bss =>
      let self :=
        {| bom_name := name;
           object_map := object_map;
           bom_unresolved_symbols := unresolved_symbols;
           bom_bss_size_required := bss;
           entry_point_symbol := entry_point_symbol;
           segment_alignment := segment_alignment |} in
      _ <- BOM___post_init__ self ;;
      Py.ret self
  end.

(** ** Methods generated by [dataclass(frozen=True)] *)








(** The [__setattr__] and [__delattr__] of a class.  For a frozen class
    [dataclass] generates methods that raise [FrozenInstanceError] when the
    instance is of the class itself or the name is one of its fields, and
    that otherwise pass the call on to [object]; for a class that is not
    frozen it generates nothing and [object]'s methods are the ones called.
    The state of an instance, the values, [repr] of a name and [object]'s
    two methods belong to the interpreter.  The first component of a result
    is the instance after the call. *)
Section Attributes.

Variable State : Type.
Variable Value : Type.
Variable repr : string -> string.
Variable object___setattr__ :
  State -> string -> Value -> State * (exn + unit).
Variable object___delattr__ : State -> string -> State * (exn + unit).



End Attributes.

(** Two mappings are equal when they have the same keys and, at every key,
    values that compare equal with the values' own [__eq__]. *)
Definition mapping___eq__ {V : Type} (value_eq : V -> V -> bool)
    (m1 m2 : gmap string V) : bool :=
  bool_decide (dom m1 = dom m2)
  && forallb (fun kv => match m2 !! kv.1 with
                        | Some v' => value_eq kv.2 v'
                        | None => false
                        end) (map_to_list m1).

(** [__eq__] compares the tuples of fields, in declaration order. *)
Definition AssembledObject___eq__ (a b : AssembledObject) : bool :=
  bool_decide (ao_path a = ao_path b)
  && bool_decide (ao_file_format a = ao_file_format b)
  && bool_decide (segment_map a = segment_map b)
  && bool_decide (strong_symbols a = strong_symbols b)
  && bool_decide (unresolved_symbols a = unresolved_symbols b)
  && bool_decide (ao_bss_size_required a = ao_bss_size_required b).

Definition LinkedExecutable___eq__ (a b : LinkedExecutable) : bool :=
  bool_decide (le_path a = le_path b)
  && bool_decide (le_file_format a = le_file_format b)
  && bool_decide (le_segments a = le_segments b)
  && bool_decide (symbols a = symbols b)
  && bool_decide (relocatable a = relocatable b).

Definition PatchRegionConfig___eq__ (a b : PatchRegionConfig) : bool :=
  bool_decide (patch_name a = patch_name b)
  && bool_decide (prc_segments a = prc_segments b).

Definition FEM___eq__ (a b : FEM) : bool :=
  bool_decide (fem_name a = fem_name b)
  && LinkedExecutable___eq__ (executable a) (executable b).

Definition BOM___eq__ (a b : BOM) : bool :=
  bool_decide (bom_name a = bom_name b)
  && mapping___eq__ AssembledObject___eq__ (object_map a) (object_map b)
  && bool_decide (bom_unresolved_symbols a = bom_unresolved_symbols b)
  && bool_decide (bom_bss_size_required a = bom_bss_size_required b)
  && bool_decide (entry_point_symbol a = entry_point_symbol b)
  && bool_decide (segment_alignment a = segment_alignment b).

(** [__hash__] is the hash of the tuple of fields.  What [hash] returns on
    strings, integers, enum members, segments, and on the mapping and set
    objects held in the fields belongs to the interpreter and to the classes
    of those objects (a [dict] or a [set] raises [TypeError], an immutable
    mapping or a [frozenset] returns a number), so it is left abstract. *)
Section Hashing.

Variable hash_str : string -> Z.
Variable hash_int : Z -> Z.
Variable hash_bool : bool -> Z.
Variable hash_None : Z.
Variable hash_BinFileType : BinFileType -> Z.
Variable hash_LinkableSymbolType : LinkableSymbolType -> Z.
Variable hash_Segment : Segment -> exn + Z.
Variable hash_mapping :
  forall V : Type, (V -> exn + Z) -> gmap string V -> exn + Z.
Variable hash_set : gset string -> exn + Z.
Variable tuple_mix : list Z -> Z.

(** The element hashes are taken left to right; the first failure wins. *)
Fixpoint collect_hashes (hs : list (exn + Z)) : exn + list Z :=
  match hs with
  | [] => inr []
  | inl e :: _ => inl e
  | inr h :: rest =>
      match collect_hashes rest with
      | inl e => inl e
      | inr l => inr (h :: l)
      end
  end.

Definition hash_tuple (hs : list (exn + Z)) : exn + Z :=
  match collect_hashes hs with
  | inl e => inl e
  | inr l => inr (tuple_mix l)
  end.

Definition hash_Optional {A : Type} (h : A -> Z) (o : option A) : Z :=
  match o with
  | None => hash_None
  | Some a => h a
  end.

Definition hash_symbol (v : Z * LinkableSymbolType) : exn + Z :=
  hash_tuple [inr (hash_int v.1); inr (hash_LinkableSymbolType v.2)].

Definition AssembledObject___hash__ (a : AssembledObject) : exn + Z :=
  hash_tuple
    [ inr (hash_str (ao_path a));
      inr (hash_BinFileType (ao_file_format a));
      hash_mapping _ hash_Segment (segment_map a);
      hash_mapping _ hash_symbol (strong_symbols a);
      hash_mapping _ hash_symbol (unresolved_symbols a);
      inr (hash_Optional hash_int (ao_bss_size_required a)) ].

Definition LinkedExecutable___hash__ (a : LinkedExecutable) : exn + Z :=
  hash_tuple
    [ inr (hash_str (le_path a));
      inr (hash_BinFileType (le_file_format a));
      hash_tuple (map hash_Segment (le_segments a));
      hash_mapping _ hash_symbol (symbols a);
      inr (hash_bool (relocatable a)) ].

Definition PatchRegionConfig___hash__ (a : PatchRegionConfig) : exn + Z :=
  hash_tuple
    [ inr (hash_str (patch_name a));
      hash_mapping _ (fun segs => hash_tuple (map hash_Segment segs))
        (prc_segments a) ].

Definition FEM___hash__ (a : FEM) : exn + Z :=
  hash_tuple
    [ inr (hash_str (fem_name a));
      LinkedExecutable___hash__ (executable a) ].

Definition BOM___hash__ (a : BOM) : exn + Z :=
  hash_tuple
    [ inr (hash_str (bom_name a));
      hash_mapping _ AssembledObject___hash__ (object_map a);
      hash_set (bom_unresolved_symbols a);
      inr (hash_Optional hash_int (bom_bss_size_required a));
      inr (hash_Optional hash_str (entry_point_symbol a));
      inr (hash_int (segment_alignment a)) ].

End Hashing.

(** ** The objects held in the container fields

    [==] on sets and on mappings looks at the contents only: a [set] equals
    the [frozenset] of the same elements, and a [dict] equals any other
    mapping with the same items.  [hash] depends on the class of the object:
    [set] and [dict] set [__hash__] to [None], so [hash] raises [TypeError],
    while a [frozenset] and a mapping class that defines [__hash__] return a
    number.  An instance as the interpreter holds it is therefore its
    contents together with the class of each container. *)

(** An object accepted where [Set[str]] is declared. *)
Inductive SetObject : Type :=
  | PySet (elems : gset string)
  | PyFrozenset (elems : gset string).

Definition SetObject_elems (o : SetObject) : gset string :=
  match o with PySet s | PyFrozenset s => s end.

(** An object accepted where [Mapping[str, V]] is declared. *)
Inductive MappingObject (V : Type) : Type :=
  | PyDict (items : gmap string V)
  | PyHashableMapping (items : gmap string V).
Arguments PyDict {V} items.
Arguments PyHashableMapping {V} items.

Definition MappingObject_items {V : Type} (o : MappingObject V)
    : gmap string V :=
  match o with PyDict m | PyHashableMapping m => m end.

(** An [AssembledObject] with the classes of its three mappings. *)
Record AssembledObjectInstance : Type := mkAssembledObjectInstance {
  inst_path : string;
  inst_file_format : BinFileType;
  inst_segment_map : MappingObject Segment;
  inst_strong_symbols : MappingObject (Z * LinkableSymbolType);
  inst_unresolved_symbols : MappingObject (Z * LinkableSymbolType);
  inst_ao_bss_size_required : option Z
}.

(** A [BOM] with the classes of its mapping and of its set. *)
Record BOMInstance : Type := mkBOMInstance {
  inst_name : string;
  inst_object_map : MappingObject AssembledObjectInstance;
  inst_bom_unresolved_symbols : SetObject;
  inst_bom_bss_size_required : option Z;
  inst_entry_point_symbol : option string;
  inst_segment_alignment : Z
}.

(** The contents of an instance, the classes of its containers forgotten. *)
Definition AssembledObjectInstance_value (o : AssembledObjectInstance)
    : AssembledObject :=
  {| ao_path := inst_path o;
     ao_file_format := inst_file_format o;
     segment_map := MappingObject_items (inst_segment_map o);
     strong_symbols := MappingObject_items (inst_strong_symbols o);
     unresolved_symbols := MappingObject_items (inst_unresolved_symbols o);
     ao_bss_size_required := inst_ao_bss_size_required o |}.

Definition BOMInstance_value (b : BOMInstance) : BOM :=
  {| bom_name := inst_name b;
     object_map :=
       AssembledObjectInstance_value
         <$> MappingObject_items (inst_object_map b);
     bom_unresolved_symbols := SetObject_elems (inst_bom_unresolved_symbols b);
     bom_bss_size_required := inst_bom_bss_size_required b;
     entry_point_symbol := inst_entry_point_symbol b;
     segment_alignment := inst_segment_alignment b |}.

(** The generated [__eq__] compares the field tuples with [==], which on the
    containers sees their contents only. *)
Definition BOMInstance___eq__ (a b : BOMInstance) : bool :=
  BOM___eq__ (BOMInstance_value a) (BOMInstance_value b).

Section InstanceHashing.

Variable hash_str : string -> Z.
Variable hash_int : Z -> Z.
Variable hash_None : Z.
Variable hash_BinFileType : BinFileType -> Z.
Variable hash_LinkableSymbolType : LinkableSymbolType -> Z.
Variable hash_Segment : Segment -> exn + Z.
Variable hash_frozenset : gset string -> Z.
Variable hash_hashable_mapping :
  forall V : Type, (V -> exn + Z) -> gmap string V -> exn + Z.
Variable tuple_mix : list Z -> Z.

Definition SetObject___hash__ (o : SetObject) : exn + Z :=
  match o with
  | PySet _ => inl (TypeError "unhashable type: 'set'")
  | PyFrozenset s => inr (hash_frozenset s)
  end.

Definition MappingObject___hash__ {V : Type} (hash_value : V -> exn + Z)
    (o : MappingObject V) : exn + Z :=
  match o with
  | PyDict _ => inl (TypeError "unhashable type: 'dict'")
  | PyHashableMapping m => hash_hashable_mapping V hash_value m
  end.

Definition AssembledObjectInstance___hash__ (o : AssembledObjectInstance)
    : exn + Z :=
  hash_tuple tuple_mix
    [ inr (hash_str (inst_path o));
      inr (hash_BinFileType (inst_file_format o));
      MappingObject___hash__ hash_Segment (inst_segment_map o);
      MappingObject___hash__
        (hash_symbol hash_int hash_LinkableSymbolType tuple_mix)
        (inst_strong_symbols o);
      MappingObject___hash__
        (hash_symbol hash_int hash_LinkableSymbolType tuple_mix)
        (inst_unresolved_symbols o);
      inr (hash_Optional hash_None hash_int (inst_ao_bss_size_required o)) ].

Definition BOMInstance___hash__ (b : BOMInstance) : exn + Z :=
  hash_tuple tuple_mix
    [ inr (hash_str (inst_name b));
      MappingObject___hash__ AssembledObjectInstance___hash__
        (inst_object_map b);
      SetObject___hash__ (inst_bom_unresolved_symbols b);
      inr (hash_Optional hash_None hash_int (inst_bom_bss_size_required b));
      inr (hash_Optional hash_None hash_str (inst_entry_point_symbol b));
      inr (hash_int (inst_segment_alignment b)) ].

End InstanceHashing.

(** ** The invariants the specification states on the entities *)

(** Some object of the map references [x] without defining it. *)
Definition named_unresolved (om : gmap string AssembledObject) (x : string)
    : Prop :=
  exists p o, om !! p = Some o /\ is_Some (unresolved_symbols o !! x).

(** Some object of the map defines [x]. *)
Definition named_strong (om : gmap string AssembledObject) (x : string)
    : Prop :=
  exists p o, om !! p = Some o /\ is_Some (strong_symbols o !! x).

(** [unresolved_symbols] is the union of the objects' unresolved names minus
    the names some object defines. *)
Definition BOM_unresolved_invariant (b : BOM) : Prop :=
  forall x,
    x ∈ bom_unresolved_symbols b <->
    named_unresolved (object_map b) x /\ ~ named_strong (object_map b) x.

(** The same two sets of names, computed by iterating over [object_map]:
    the union of the objects' [unresolved_symbols] keys, and the union of
    their [strong_symbols] keys. *)
Definition all_unresolved_names (om : gmap string AssembledObject)
    : gset string :=
  map_fold (fun _ o acc => dom (unresolved_symbols o) ∪ acc) ∅ om.

Definition all_strong_names (om : gmap string AssembledObject)
    : gset string :=
  map_fold (fun _ o acc => dom (strong_symbols o) ∪ acc) ∅ om.

(** The segment names of an object: the keys of [segment_map], as iteration
    over the mapping lists them. *)
Definition segment_names (o : AssembledObject) : list string :=
  (map_to_list (segment_map o)).*1.

Definition strong_names (o : AssembledObject) : list string :=
  (map_to_list (strong_symbols o)).*1.

Definition unresolved_names (o : AssembledObject) : list string :=
  (map_to_list (unresolved_symbols o)).*1.

(** A name is a symbol of the object when either mapping binds it. *)
Definition is_symbol (o : AssembledObject) (x : string) : Prop :=
  is_Some (strong_symbols o !! x) \/ is_Some (unresolved_symbols o !! x).

(** The symbol is in one of the two mappings and not in the other. *)
Definition in_exactly_one (o : AssembledObject) (x : string) : Prop :=
  (is_Some (strong_symbols o !! x) /\ unresolved_symbols o !! x = None)
  \/ (strong_symbols o !! x = None /\ is_Some (unresolved_symbols o !! x)).

Definition AssembledObject_invariant (o : AssembledObject) : Prop :=
  NoDup (segment_names o) /\ forall x, is_symbol o x -> in_exactly_one o x.

(** ** The BOM builder *)

(** Modelled from the spec: two objects of the map, under different paths,
    both define one name (section 4.2). *)
Definition strong_conflict (om : gmap string AssembledObject) : bool :=
  let objects := map_to_list om in
  existsb (fun kv1 =>
    existsb (fun kv2 =>
      bool_decide (kv1.1 <> kv2.1)
      && bool_decide (dom (strong_symbols kv1.2) ∩ dom (strong_symbols kv2.2)
                      <> ∅))
      objects)
    objects.

(** Modelled from the spec: [build] of the BOM builder (section 4.2), which
    is not part of [model.py], from the point where the objects the toolchain
    produced are collected, one per source path (compiling the sources is the
    external toolchain's work, and the alignment and entry point come from
    the caller).  It refuses an empty map and conflicting strong definitions,
    and otherwise constructs the [BOM] with the unresolved names that no
    object of the patch defines. *)
Definition BOMBuilder_build
    (name : string) (om : gmap string AssembledObject)
    (bss_size_required : option Z) (entry_point_symbol : option string)
    (segment_alignment : Z) : Py.t BOM :=
  if bool_decide (om = ∅) then
    Py.raise (PatchMakerException EmptyObjectMap)
  else if strong_conflict om then
    Py.raise (PatchMakerException SymbolConflictError)
  else
    BOM___init__ name om (all_unresolved_names om ∖ all_strong_names om)
      (Passed bss_size_required) entry_point_symbol segment_alignment.

(** The instance is an output of the stage that owns its class. *)
Definition built_by_owning_stage (b : BOM) : Prop :=
  exists name om bss ep al, Py.returns (BOMBuilder_build name om bss ep al) b.

(** ** The region planner *)

(** Modelled from the spec: a target memory region, with its name, base
    address and declared size (sections 4.3 and 8). *)
Record Region : Type := mkRegion {
  region_name : string;
  base_address : Z;
  region_length : Z
}.

(** Modelled from the spec: rounding an address up to the nearest multiple of
    the alignment (section 4.3). *)
Definition align_up (alignment x : Z) : Z :=
  (x + alignment - 1) / alignment * alignment.

(** Modelled from the spec: the walk of the planner over the segments
    requested for one region, in their declared order (section 4.3).  Each
    start is the cursor rounded up to the alignment; the segment that would
    end past the region's declared size stops the walk with a region-overflow
    [PatchMakerException] that names the region and that segment. *)
Fixpoint place_segments (alignment : Z) (r : Region) (cursor : Z)
    (segs : list Segment) : exn + list Segment :=
  match segs with
  | [] => inr []
  | s :: rest =>
      let start := align_up alignment cursor in
      let stop := start + seg_length s in
      if region_length r <? stop - base_address r then
        inl (PatchMakerException
               (RegionOverflowError (region_name r) (segment_name s)))
      else
        match place_segments alignment r stop rest with
        | inl e => inl e
        | inr placed =>
            inr (mkSegment (segment_name s) start (seg_length s)
                   (access_perms s) :: placed)
        end
  end.

(** Modelled from the spec: planning one region starts at its base address
    and aligns to [bom.segment_alignment] (section 4.3). *)
Definition plan_region (bom : BOM) (r : Region) (segs : list Segment)
    : exn + list Segment :=
  place_segments (segment_alignment bom) r (base_address r) segs.

(** Total requested size of a list of segments. *)
Definition total_size (segs : list Segment) : Z :=
  foldr (fun s acc => seg_length s + acc) 0 segs.

(** The segment lies within the region's bounds. *)
Definition within_region (r : Region) (s : Segment) : Prop :=
  base_address r <= vm_address s
  /\ vm_address s + seg_length s <= base_address r + region_length r.

(** ** Lookups of [SourceFileType] members

    [Enum] builds, from the class body of lines 139-142, the list of members
    in definition order and answers [SourceFileType(value)] and
    [SourceFileType[name]] from it. *)

#[global] Instance SourceFileType_eq_dec : EqDecision SourceFileType.
Proof. solve_decision. Defined.

(** A failed lookup raises [ValueError] (by value) or [KeyError] (by
    name). *)
Inductive EnumLookupError : Type :=
  | ValueError (value : Z)
  | KeyError (name : string).

Definition SourceFileType_members : list SourceFileType := [DEFAULT; C; ASM].

Definition SourceFileType_name (t : SourceFileType) : string :=
  match t with DEFAULT => "DEFAULT" | C => "C" | ASM => "ASM" end.

(** [SourceFileType(value)] *)
Definition SourceFileType___call__ (value : Z)
    : EnumLookupError + SourceFileType :=
  match find (fun m => bool_decide (SourceFileType_value m = value))
          SourceFileType_members with
  | Some m => inr m
  | None => inl (ValueError value)
  end.

(** [SourceFileType[name]] *)
Definition SourceFileType___getitem__ (name : string)
    : EnumLookupError + SourceFileType :=
  match find (fun m => bool_decide (SourceFileType_name m = name))
          SourceFileType_members with
  | Some m => inr m
  | None => inl (KeyError name)
  end.

(** ** Example data *)

(** Two sources that resolve each other: [a.c] defines [f] and uses [g] and
    [h], [b.c] defines [g] and uses [f]. *)
Definition two_objects : gmap string AssembledObject :=
  {[ "a.c" := mkAssembledObject "a.o" ELF ∅
                {["f" := (0, FUNC)]}
                {["g" := (0, FUNC); "h" := (0, OBJECT)]} None;
     "b.c" := mkAssembledObject "b.o" ELF ∅
                {["g" := (0, FUNC)]} {["f" := (0, FUNC)]} None ]}.

(** A manifest of [two_objects] with alignment 4. *)
Definition patch_bom : BOM := mkBOM "patch" two_objects {["h"]} None None 4.

(** The region of the specification's scenarios (section 8). *)
Definition PATCH_A : Region := mkRegion "PATCH_A" 0x1000 0x100.

(** * Properties *)

(** ** Construction *)

(** [__post_init__] returns on every instance: all it does is log. *)
Lemma AssembledObject___post_init___returns (self : AssembledObject) :
  Py.returns (AssembledObject___post_init__ self) tt.
Proof.
  unfold Py.returns, AssembledObject___post_init__.
  by destruct (ao_bss_size_required self).
Qed.

Lemma BOM___post_init___returns (self : BOM) :
  Py.returns (BOM___post_init__ self) tt.
Proof.
  unfold Py.returns, BOM___post_init__.
  by destruct (bom_bss_size_required self).
Qed.

(** What [AssembledObject(...)] evaluates to, by cases on the deprecated
    argument. *)
Lemma AssembledObject___init___spec path ff sm ss us bss :
  AssembledObject___init__ path ff sm ss us bss =
  match bss with
  | Passed (Some n) =>
      ([mkWarning UserWarning "AssembledObject.bss_size_required is deprecated"],
       inr (mkAssembledObject path ff sm ss us (Some n)))
  | _ => ([], inr (mkAssembledObject path ff sm ss us None))
  end.
Proof. by destruct bss as [|[n|]]. Qed.

Lemma BOM___init___spec name om u bss ep al :
  BOM___init__ name om u (Passed bss) ep al =
  match bss with
  | Some n =>
      ([mkWarning UserWarning "BOM.bss_size_required is deprecated"],
       inr (mkBOM name om u (Some n) ep al))
  | None => ([], inr (mkBOM name om u None ep al))
  end.
Proof. by destruct bss. Qed.

(** ** Deprecated field *)

(** C5: constructing an [AssembledObject] or a [BOM] with a
    [bss_size_required] other than [None] (zero included) logs exactly one
    warning, the deprecation message of the class, and returns the instance
    with every field as passed; no exception is raised. *)
Theorem bss_size_required_warns_without_failing :
  forall (path : string) (ff : BinFileType) (sm : gmap string Segment)
         (ss us : SymbolMap) (name : string)
         (om : gmap string AssembledObject) (u : gset string)
         (ep : option string) (al : Z) (n : Z),
    AssembledObject___init__ path ff sm ss us (Passed (Some n)) =
      ([mkWarning UserWarning "AssembledObject.bss_size_required is deprecated"],
       inr (mkAssembledObject path ff sm ss us (Some n)))
    /\ BOM___init__ name om u (Passed (Some n)) ep al =
      ([mkWarning UserWarning "BOM.bss_size_required is deprecated"],
       inr (mkBOM name om u (Some n) ep al)).
Proof. intros. split; reflexivity. Qed.

(** C9: [AssembledObject.bss_size_required] defaults to [None]: a construction
    that leaves the argument out stores [None] and logs no warning.  [BOM]
    declares the field without a default: a construction that leaves it out
    raises [TypeError] and builds nothing. *)
Theorem bss_size_required_default :
  forall (path : string) (ff : BinFileType) (sm : gmap string Segment)
         (ss us : SymbolMap) (name : string)
         (om : gmap string AssembledObject) (u : gset string)
         (ep : option string) (al : Z),
    (exists o,
        AssembledObject___init__ path ff sm ss us Omitted = ([], inr o)
        /\ ao_bss_size_required o = None
        /\ o = mkAssembledObject path ff sm ss us None)
    /\ (exists msg,
        BOM___init__ name om u Omitted ep al = ([], inl (TypeError msg))).
Proof.
  intros. split.
  - eexists. split; [reflexivity|]. by split.
  - eexists. reflexivity.
Qed.

(** C10: construction of every entity is total: for all field values the
    constructor returns the instance holding exactly those values, and the
    only thing it may log is the deprecation warning of
    [bss_size_required].  Nothing is checked: neither the sign of
    [segment_alignment], nor the contents of [unresolved_symbols], nor
    whether the two symbol mappings of an object share names. *)
Theorem construction_never_raises :
  forall (path : string) (ff : BinFileType) (sm : gmap string Segment)
         (ss us : SymbolMap) (bss : Arg (option Z))
         (segs : list Segment) (syms : SymbolMap) (reloc : bool)
         (pname : string) (rsegs : gmap string (list Segment))
         (fname : string) (exe : LinkedExecutable)
         (name : string) (om : gmap string AssembledObject)
         (u : gset string) (bbss : option Z) (ep : option string) (al : Z),
    (exists ws o,
        AssembledObject___init__ path ff sm ss us bss = (ws, inr o)
        /\ o = mkAssembledObject path ff sm ss us
                 (match bss with Omitted => None | Passed v => v end)
        /\ (ws = [] \/
            ws = [mkWarning UserWarning
                    "AssembledObject.bss_size_required is deprecated"]))
    /\ LinkedExecutable___init__ path ff segs syms reloc =
         ([], inr (mkLinkedExecutable path ff segs syms reloc))
    /\ PatchRegionConfig___init__ pname rsegs =
         ([], inr (mkPatchRegionConfig pname rsegs))
    /\ FEM___init__ fname exe = ([], inr (mkFEM fname exe))
    /\ (exists ws b,
        BOM___init__ name om u (Passed bbss) ep al = (ws, inr b)
        /\ b = mkBOM name om u bbss ep al
        /\ (ws = [] \/
            ws = [mkWarning UserWarning "BOM.bss_size_required is deprecated"])).
Proof.
  intros. repeat split.
  - rewrite AssembledObject___init___spec.
    destruct bss as [|[n|]]; do 2 eexists; (split; [reflexivity|]); split;
      auto.
  - rewrite BOM___init___spec.
    destruct bbss as [n|]; do 2 eexists; (split; [reflexivity|]); split; auto.
Qed.

(** ** Value semantics of the frozen dataclasses *)

Lemma mapping___eq___true {V : Type} (value_eq : V -> V -> bool)
    (m1 m2 : gmap string V) :
  (forall v v', value_eq v v' = true <-> v = v') ->
  mapping___eq__ value_eq m1 m2 = true <-> m1 = m2.
Proof.
  intros Hveq. unfold mapping___eq__.
  rewrite andb_true_iff, bool_decide_eq_true, forallb_forall. split.
  - intros [Hdom Hall]. apply map_eq. intros k.
    destruct (m1 !! k) as [v|] eqn:Hk.
    + specialize (Hall (k, v)). simpl in Hall.
      assert (Hin : In (k, v) (map_to_list m1)).
      { apply list_elem_of_In. by apply elem_of_map_to_list. }
      specialize (Hall Hin). destruct (m2 !! k) as [v'|]; [|done].
      apply Hveq in Hall. by subst.
    + symmetry. apply not_elem_of_dom. rewrite <- Hdom.
      by apply not_elem_of_dom.
  - intros <-. split; [done|]. intros [k v] Hin. simpl.
    apply list_elem_of_In, elem_of_map_to_list in Hin. rewrite Hin.
    by apply Hveq.
Qed.

Ltac split_eq_fields :=
  repeat rewrite andb_true_iff; repeat rewrite bool_decide_eq_true.

Lemma AssembledObject___eq___true (a b : AssembledObject) :
  AssembledObject___eq__ a b = true <-> a = b.
Proof.
  unfold AssembledObject___eq__. split_eq_fields. split.
  - destruct a, b; simpl. intros [[[[[-> ->] ->] ->] ->] ->]. done.
  - intros <-. repeat split.
Qed.

Lemma LinkedExecutable___eq___true (a b : LinkedExecutable) :
  LinkedExecutable___eq__ a b = true <-> a = b.
Proof.
  unfold LinkedExecutable___eq__. split_eq_fields. split.
  - destruct a, b; simpl. intros [[[[-> ->] ->] ->] ->]. done.
  - intros <-. repeat split.
Qed.

Lemma PatchRegionConfig___eq___true (a b : PatchRegionConfig) :
  PatchRegionConfig___eq__ a b = true <-> a = b.
Proof.
  unfold PatchRegionConfig___eq__. split_eq_fields. split.
  - destruct a, b; simpl. intros [-> ->]. done.
  - intros <-. repeat split.
Qed.

Lemma FEM___eq___true (a b : FEM) : FEM___eq__ a b = true <-> a = b.
Proof.
  unfold FEM___eq__.
  rewrite andb_true_iff, bool_decide_eq_true, LinkedExecutable___eq___true.
  split.
  - destruct a, b; simpl. intros [-> ->]. done.
  - intros <-. by split.
Qed.

Lemma BOM___eq___true (a b : BOM) : BOM___eq__ a b = true <-> a = b.
Proof.
  unfold BOM___eq__. split_eq_fields.
  rewrite (mapping___eq___true _ _ _ AssembledObject___eq___true). split.
  - destruct a, b; simpl. intros [[[[[-> ->] ->] ->] ->] ->]. done.
  - intros <-. repeat split.
Qed.

Section EqualInstancesHash.

Variable hash_str : string -> Z.
Variable hash_int : Z -> Z.
Variable hash_None : Z.
Variable hash_BinFileType : BinFileType -> Z.
Variable hash_LinkableSymbolType : LinkableSymbolType -> Z.
Variable hash_Segment : Segment -> exn + Z.
Variable hash_frozenset : gset string -> Z.
Variable hash_hashable_mapping :
  forall V : Type, (V -> exn + Z) -> gmap string V -> exn + Z.
Variable tuple_mix : list Z -> Z.

Local Abbreviation hash_of_object_map :=
  (MappingObject___hash__ hash_hashable_mapping
     (AssembledObjectInstance___hash__ hash_str hash_int hash_None
        hash_BinFileType hash_LinkableSymbolType hash_Segment
        hash_hashable_mapping tuple_mix)).
Local Abbreviation hash_of_BOMInstance :=
  (BOMInstance___hash__ hash_str hash_int hash_None hash_BinFileType
     hash_LinkableSymbolType hash_Segment hash_frozenset
     hash_hashable_mapping tuple_mix).

(** C4: the entities are meant to be value objects whose equal instances
    hash equal, and the docstrings of [FEM] and [BOM] say that freezing the
    class gives every instance a hash.  The code does not deliver it.  A
    [BOM] whose [unresolved_symbols] is a builtin [set], the type line 129
    declares, has no hash: [hash] raises, with the error of [object_map]
    when that is unhashable too and with the set's [TypeError] otherwise.
    Its twin that holds the [frozenset] of the same elements compares equal
    to it and hashes to a number exactly when [object_map] is hashable.  At
    [BOM('patch', {}, {'foo'}, None, None, 4)] the call raises
    [TypeError]. *)
Theorem equal_BOM_instances_differ_in_hash :
  forall (name : string) (om : MappingObject AssembledObjectInstance)
         (s : gset string) (bss : option Z) (ep : option string) (al : Z),
    let with_set := mkBOMInstance name om (PySet s) bss ep al in
    let with_frozenset := mkBOMInstance name om (PyFrozenset s) bss ep al in
    BOMInstance___eq__ with_set with_frozenset = true
    /\ hash_of_BOMInstance with_set
       = match hash_of_object_map om with
         | inl e => inl e
         | inr _ => inl (TypeError "unhashable type: 'set'")
         end
    /\ (exists e, hash_of_BOMInstance with_set = inl e)
    /\ ((exists h, hash_of_BOMInstance with_frozenset = inr h)
        <-> (exists hm, hash_of_object_map om = inr hm))
    /\ hash_of_BOMInstance
         (mkBOMInstance "patch" (PyDict ∅) (PySet {["foo"]}) None None 4)
       = inl (TypeError "unhashable type: 'dict'").
Proof.
  intros name om s bss ep al with_set with_frozenset.
  split; [|split; [|split; [|split]]].
  - unfold BOMInstance___eq__. by apply BOM___eq___true.
  - unfold with_set, BOMInstance___hash__, hash_tuple. simpl.
    by destruct (hash_of_object_map om).
  - unfold with_set, BOMInstance___hash__, hash_tuple. simpl.
    destruct (hash_of_object_map om); by eexists.
  - unfold with_frozenset, BOMInstance___hash__, hash_tuple. simpl.
    destruct (hash_of_object_map om) as [e|hm].
    + split; by intros [? ?].
    + split; intros _; by eexists.
  - reflexivity.
Qed.

End EqualInstancesHash.

(** The twins with an empty hashable mapping as [object_map], under hash
    functions chosen for the example: the instance with the [set] raises,
    the one with the [frozenset] returns a number, and [==] holds. *)
Lemma set_and_frozenset_twins_example :
  let hash_of :=
    BOMInstance___hash__ (fun s => Z.of_nat (String.length s)) id 0
      (fun _ => 1) (fun _ => 2) (fun _ => inr 3)
      (fun s => Z.of_nat (size s)) (fun _ _ m => inr (Z.of_nat (size m)))
      (fun l => Z.of_nat (List.length l)) in
  let with_set :=
    mkBOMInstance "patch" (PyHashableMapping ∅) (PySet {["foo"]})
      None None 4 in
  let with_frozenset :=
    mkBOMInstance "patch" (PyHashableMapping ∅) (PyFrozenset {["foo"]})
      None None 4 in
  BOMInstance___eq__ with_set with_frozenset = true
  /\ hash_of with_set = inl (TypeError "unhashable type: 'set'")
  /\ hash_of with_frozenset = inr 6.
Proof. vm_compute. repeat split. Qed.

(** ** Names of an assembled object *)

Lemma in_exactly_one_iff_disjoint (o : AssembledObject) :
  (forall x, is_symbol o x -> in_exactly_one o x)
  <-> dom (strong_symbols o) ## dom (unresolved_symbols o).
Proof.
  unfold is_symbol, in_exactly_one. split.
  - intros Hone x Hs Hu.
    apply elem_of_dom in Hs. apply elem_of_dom in Hu.
    destruct (Hone x (or_introl Hs)) as [[_ Hnone]|[Hnone _]].
    + rewrite Hnone in Hu. by destruct Hu.
    + rewrite Hnone in Hs. by destruct Hs.
  - intros Hdisj x [Hs|Hu].
    + left. split; [done|]. apply not_elem_of_dom. intros Hu.
      apply (Hdisj x); [by apply elem_of_dom | done].
    + right. split; [|done]. apply not_elem_of_dom. intros Hs.
      apply (Hdisj x); [done | by apply elem_of_dom].
Qed.

(** C6, as the code has it: in every [AssembledObject] the segment names are
    unique within [segment_map], and a symbol name is bound at most once in
    [strong_symbols] and at most once in [unresolved_symbols].  The class
    does not compare the two symbol mappings: every symbol is in exactly one
    of them if and only if their key sets are disjoint, and the constructor
    stores any two mappings as passed. *)
Theorem AssembledObject_names_unique_per_mapping :
  forall (path : string) (ff : BinFileType) (sm : gmap string Segment)
         (ss us : SymbolMap) (bss : Arg (option Z)),
  exists ws o,
    AssembledObject___init__ path ff sm ss us bss = (ws, inr o)
    /\ strong_symbols o = ss
    /\ unresolved_symbols o = us
    /\ NoDup (segment_names o)
    /\ NoDup (strong_names o)
    /\ NoDup (unresolved_names o)
    /\ ((forall x, is_symbol o x -> in_exactly_one o x)
        <-> dom ss ## dom us).
Proof.
  intros. rewrite AssembledObject___init___spec.
  destruct bss as [|[n|]]; do 2 eexists;
    do 3 (split; [reflexivity|]);
    do 3 (split; [apply NoDup_fst_map_to_list|]);
    apply (in_exactly_one_iff_disjoint (mkAssembledObject _ _ _ _ _ _)).
Qed.

(** C6 as stated fails: the constructor accepts an object whose two symbol
    mappings both bind [foo]. *)
Lemma AssembledObject_invariant_counterexample :
  exists o,
    AssembledObject___init__ "a.o" ELF ∅
      {["foo" := (0, FUNC)]} {["foo" := (4096, FUNC)]} Omitted
    = ([], inr o)
    /\ ~ AssembledObject_invariant o.
Proof.
  eexists. split; [reflexivity|].
  intros [_ Hone]. specialize (Hone "foo").
  unfold is_symbol, in_exactly_one in Hone. simpl in Hone.
  rewrite !lookup_singleton_eq in Hone.
  destruct Hone as [[_ ?]|[? _]]; [by left | done | done].
Qed.

(** ** Unresolved symbols of a BOM *)

Lemma elem_of_fold_names (names : AssembledObject -> gset string)
    (om : gmap string AssembledObject) (x : string) :
  x ∈ map_fold (fun _ o acc => names o ∪ acc) ∅ om
  <-> exists p o, om !! p = Some o /\ x ∈ names o.
Proof.
  revert x.
  apply (map_fold_weak_ind
           (fun (acc : gset string) (m : gmap string AssembledObject) =>
              forall x, x ∈ acc <-> exists p o, m !! p = Some o /\ x ∈ names o)).
  - intros x. split; [set_solver|]. intros (p & o & Hp & _).
    by rewrite lookup_empty in Hp.
  - intros p o m acc Hfresh IH x. rewrite elem_of_union, IH. split.
    + intros [Hx|(q & o' & Hq & Hx)].
      * exists p, o. by rewrite lookup_insert_eq.
      * exists q, o'. split; [|done].
        rewrite lookup_insert_ne; [done|]. intros ->. congruence.
    + intros (q & o' & Hq & Hx). destruct (decide (p = q)) as [->|Hne].
      * rewrite lookup_insert_eq in Hq. left. congruence.
      * rewrite lookup_insert_ne in Hq by done. right. eauto.
Qed.

Lemma elem_of_all_unresolved_names om x :
  x ∈ all_unresolved_names om <-> named_unresolved om x.
Proof.
  unfold all_unresolved_names, named_unresolved.
  rewrite (elem_of_fold_names (fun o => dom (unresolved_symbols o))).
  by setoid_rewrite elem_of_dom.
Qed.

Lemma elem_of_all_strong_names om x :
  x ∈ all_strong_names om <-> named_strong om x.
Proof.
  unfold all_strong_names, named_strong.
  rewrite (elem_of_fold_names (fun o => dom (strong_symbols o))).
  by setoid_rewrite elem_of_dom.
Qed.

Lemma BOM_unresolved_invariant_iff (b : BOM) :
  BOM_unresolved_invariant b
  <-> bom_unresolved_symbols b
      = all_unresolved_names (object_map b) ∖ all_strong_names (object_map b).
Proof.
  unfold BOM_unresolved_invariant. split.
  - intros Hinv. apply set_eq. intros x.
    rewrite Hinv, elem_of_difference, elem_of_all_unresolved_names,
      elem_of_all_strong_names. done.
  - intros -> x.
    rewrite elem_of_difference, elem_of_all_unresolved_names,
      elem_of_all_strong_names. done.
Qed.

(** What the builder returns when it returns. *)
Lemma BOMBuilder_build_returns name om bss ep al b :
  Py.returns (BOMBuilder_build name om bss ep al) b ->
  om <> ∅
  /\ b = mkBOM name om (all_unresolved_names om ∖ all_strong_names om)
           bss ep al.
Proof.
  unfold Py.returns, Py.outcome, BOMBuilder_build.
  case_bool_decide as Hempty; [done|].
  destruct (strong_conflict om); [done|].
  rewrite BOM___init___spec. destruct bss; simpl; intros [= <-]; done.
Qed.

(** C1, as the code has it: a [BOM] holds the [unresolved_symbols] set its
    constructor was given, whatever [object_map] is, so the invariant holds
    of a directly constructed [BOM] exactly when the caller passed the union
    of the objects' unresolved names minus the names some object defines.
    The BOM builder passes that set: every [BOM] it returns satisfies the
    invariant, and it returns one whenever the object map is not empty and
    free of conflicting strong definitions. *)
Theorem BOM_unresolved_symbols_as_constructed :
  forall (name : string) (om : gmap string AssembledObject)
         (u : gset string) (bss : option Z) (ep : option string) (al : Z),
    (exists ws b,
        BOM___init__ name om u (Passed bss) ep al = (ws, inr b)
        /\ object_map b = om
        /\ bom_unresolved_symbols b = u
        /\ (BOM_unresolved_invariant b
            <-> u = all_unresolved_names om ∖ all_strong_names om))
    /\ (forall b,
        Py.returns (BOMBuilder_build name om bss ep al) b ->
        BOM_unresolved_invariant b)
    /\ (om <> ∅ -> strong_conflict om = false ->
        exists b, Py.returns (BOMBuilder_build name om bss ep al) b).
Proof.
  intros. split; [|split].
  - rewrite BOM___init___spec.
    destruct bss; do 2 eexists; do 3 (split; [reflexivity|]);
      apply (BOM_unresolved_invariant_iff (mkBOM _ _ _ _ _ _)).
  - intros b Hb. apply BOMBuilder_build_returns in Hb as [_ ->].
    by apply BOM_unresolved_invariant_iff.
  - intros Hne Hconf. unfold Py.returns, Py.outcome, BOMBuilder_build.
    rewrite bool_decide_eq_false_2 by done. rewrite Hconf.
    rewrite BOM___init___spec. destruct bss; eexists; reflexivity.
Qed.

(** The builder on [two_objects]: only [h] stays unresolved. *)
Lemma BOM_unresolved_symbols_as_constructed_witness :
  exists b,
    Py.returns (BOMBuilder_build "patch" two_objects None None 4) b
    /\ BOM_unresolved_invariant b
    /\ bom_unresolved_symbols b = {["h"]}.
Proof.
  destruct (BOM_unresolved_symbols_as_constructed
              "patch" two_objects ∅ None None 4) as (_ & Hinv & Hret).
  destruct Hret as [b Hb].
  - intros Hempty. apply (f_equal (fun m => m !! "a.c")) in Hempty.
    vm_compute in Hempty. discriminate.
  - vm_compute. reflexivity.
  - exists b. split; [exact Hb|]. split; [exact (Hinv b Hb)|].
    apply BOMBuilder_build_returns in Hb as [_ ->]. simpl.
    apply (bool_decide_eq_true_1 _). vm_compute. reflexivity.
Defined.

(** C1 as stated fails: a [BOM] constructed with no objects and [foo] listed
    as unresolved. *)
Lemma BOM_unresolved_invariant_counterexample :
  exists b,
    BOM___init__ "patch" ∅ {["foo"]} (Passed None) None 4 = ([], inr b)
    /\ ~ BOM_unresolved_invariant b.
Proof.
  eexists. split; [reflexivity|].
  intros Hinv. destruct (Hinv "foo") as [Hfoo _]. simpl in Hfoo.
  destruct Hfoo as [(p & o & Hp & _) _]; [set_solver|].
  by rewrite lookup_empty in Hp.
Qed.

(** ** Who may construct *)

(** C8, as the code has it: the constructors of [FEM] and [BOM] are ordinary
    public constructors.  A direct call with any field values returns the
    instance; neither the caller nor the provenance of the values is
    examined, and that instances belong to PatchMaker is a convention of the
    docstrings.  Every [BOM] the builder returns is also the result of a
    direct call. *)
Theorem constructors_are_public :
  forall (fname : string) (exe : LinkedExecutable)
         (name : string) (om : gmap string AssembledObject)
         (u : gset string) (bss : option Z) (ep : option string) (al : Z),
    Py.returns (FEM___init__ fname exe) (mkFEM fname exe)
    /\ Py.returns (BOM___init__ name om u (Passed bss) ep al)
         (mkBOM name om u bss ep al)
    /\ (forall b,
        built_by_owning_stage b ->
        exists name' om' u' bss' ep' al',
          Py.returns (BOM___init__ name' om' u' (Passed bss') ep' al') b).
Proof.
  intros. split; [reflexivity|]. split.
  - unfold Py.returns, Py.outcome. rewrite BOM___init___spec. by destruct bss.
  - intros b (name' & om' & bss' & ep' & al' & Hb).
    apply BOMBuilder_build_returns in Hb as [_ ->].
    exists name', om', (all_unresolved_names om' ∖ all_strong_names om'),
      bss', ep', al'.
    unfold Py.returns, Py.outcome. rewrite BOM___init___spec. by destruct bss'.
Qed.

(** The [BOM] the builder returns for [two_objects] is reachable by a direct
    constructor call. *)
Lemma constructors_are_public_witness :
  exists name om u bss ep al,
    Py.returns (BOM___init__ name om u (Passed bss) ep al)
      (mkBOM "patch" two_objects
         (all_unresolved_names two_objects ∖ all_strong_names two_objects)
         None None 4).
Proof.
  destruct (constructors_are_public "patch"
              (mkLinkedExecutable "patch.elf" ELF [] ∅ false)
              "patch" two_objects ∅ None None 4) as (_ & _ & Hbuilt).
  apply Hbuilt. exists "patch", two_objects, None, None, 4.
  vm_compute. reflexivity.
Defined.

(** C8 as stated fails: client code constructs a [BOM] with an empty
    [object_map] directly, and no run of the BOM builder, which refuses an
    empty map, returns that instance. *)
Lemma constructors_not_restricted_counterexample :
  exists b,
    Py.returns (BOM___init__ "patch" ∅ ∅ (Passed None) None 0) b
    /\ ~ built_by_owning_stage b.
Proof.
  eexists. split; [reflexivity|].
  intros (name & om & bss & ep & al & Hb).
  apply BOMBuilder_build_returns in Hb as [Hne Heq].
  apply Hne. by injection Heq.
Qed.

(** ** The region planner *)

Lemma align_up_ge (alignment x : Z) :
  0 < alignment -> x <= align_up alignment x.
Proof.
  intros Hpos. unfold align_up.
  pose proof (Z.div_mod (x + alignment - 1) alignment) as Hdm.
  pose proof (Z.mod_pos_bound (x + alignment - 1) alignment Hpos) as Hmod.
  lia.
Qed.

Lemma align_up_lt (alignment x : Z) :
  0 < alignment -> align_up alignment x < x + alignment.
Proof.
  intros Hpos. unfold align_up.
  pose proof (Z.div_mod (x + alignment - 1) alignment) as Hdm.
  pose proof (Z.mod_pos_bound (x + alignment - 1) alignment Hpos) as Hmod.
  lia.
Qed.

Lemma align_up_multiple (alignment x : Z) :
  (alignment | align_up alignment x).
Proof. unfold align_up. apply Z.divide_factor_r. Qed.

(** The walk from any cursor inside the region: when what is left of the
    region cannot hold the requested sizes, the walk places a prefix and
    stops at the segment that follows it. *)
Lemma place_segments_overflow (alignment : Z) (r : Region) :
  0 < alignment ->
  forall (segs : list Segment) (cursor : Z),
    cursor - base_address r <= region_length r ->
    region_length r < cursor - base_address r + total_size segs ->
    exists fitting s rest placed,
      segs = fitting ++ s :: rest
      /\ place_segments alignment r cursor fitting = inr placed
      /\ place_segments alignment r cursor (fitting ++ [s])
         = inl (PatchMakerException
                  (RegionOverflowError (region_name r) (segment_name s)))
      /\ place_segments alignment r cursor segs
         = inl (PatchMakerException
                  (RegionOverflowError (region_name r) (segment_name s))).
Proof.
  intros Hpos. induction segs as [|s segs IH]; intros cursor Hin Hover.
  - simpl in Hover. lia.
  - simpl in Hover.
    pose proof (align_up_ge alignment cursor Hpos) as Hge.
    destruct (region_length r
              <? align_up alignment cursor + seg_length s - base_address r)
      eqn:Hfit.
    + exists [], s, segs, []. simpl. rewrite Hfit. done.
    + apply Z.ltb_ge in Hfit.
      destruct (IH (align_up alignment cursor + seg_length s))
        as (fitting & s' & rest & placed & -> & Hplaced & Hstop & Hall);
        [lia | lia |].
      exists (s :: fitting), s', rest,
        (mkSegment (segment_name s) (align_up alignment cursor)
           (seg_length s) (access_perms s) :: placed).
      apply Z.ltb_ge in Hfit. simpl. rewrite Hfit, Hplaced, Hstop, Hall. done.
Qed.

(** C2: when the total requested size exceeds the declared size of the
    region, planning the region fails with a region-overflow
    [PatchMakerException] that names the region and the first segment that
    does not fit: the segments before it are placed, and it is the one whose
    end passes the region's size. *)
Theorem region_overflow_names_first_offender :
  forall (bom : BOM) (r : Region) (segs : list Segment),
    0 < segment_alignment bom ->
    0 <= region_length r ->
    region_length r < total_size segs ->
    exists fitting s rest placed,
      segs = fitting ++ s :: rest
      /\ plan_region bom r fitting = inr placed
      /\ plan_region bom r (fitting ++ [s])
         = inl (PatchMakerException
                  (RegionOverflowError (region_name r) (segment_name s)))
      /\ plan_region bom r segs
         = inl (PatchMakerException
                  (RegionOverflowError (region_name r) (segment_name s))).
Proof.
  intros bom r segs Hpos Hlen Hover. unfold plan_region.
  apply place_segments_overflow; [done | lia | lia].
Qed.

(** The overflow scenario of the specification: two segments of [0x90] bytes
    in [PATCH_A]; the second one does not fit. *)
Lemma region_overflow_names_first_offender_witness :
  exists fitting s rest placed,
    [mkSegment ".text" 0 0x90 RX; mkSegment ".data" 0 0x90 RW]
    = fitting ++ s :: rest
    /\ plan_region patch_bom PATCH_A fitting = inr placed
    /\ plan_region patch_bom PATCH_A (fitting ++ [s])
       = inl (PatchMakerException
                (RegionOverflowError "PATCH_A" (segment_name s)))
    /\ plan_region patch_bom PATCH_A
         [mkSegment ".text" 0 0x90 RX; mkSegment ".data" 0 0x90 RW]
       = inl (PatchMakerException
                (RegionOverflowError "PATCH_A" (segment_name s))).
Proof.
  apply (region_overflow_names_first_offender patch_bom PATCH_A
           [mkSegment ".text" 0 0x90 RX; mkSegment ".data" 0 0x90 RW]).
  - simpl. lia.
  - simpl. lia.
  - simpl. lia.
Defined.

(** C3: in a region based at [0x1000] of length [0x100], with
    [segment_alignment] 4, two requested segments of sizes 10 and 6 are
    placed at [0x1000] and at [0x100C], the end [0x100A] of the first rounded
    up to a multiple of 4; both lie within the region. *)
Theorem scenario_two_segments_placed :
  forall (bom : BOM) (r : Region) (s1 s2 : Segment),
    segment_alignment bom = 4 ->
    base_address r = 0x1000 ->
    region_length r = 0x100 ->
    seg_length s1 = 10 ->
    seg_length s2 = 6 ->
    exists p1 p2,
      plan_region bom r [s1; s2] = inr [p1; p2]
      /\ p1 = mkSegment (segment_name s1) 0x1000 10 (access_perms s1)
      /\ p2 = mkSegment (segment_name s2) 0x100C 6 (access_perms s2)
      /\ align_up 4 0x100A = 0x100C
      /\ within_region r p1
      /\ within_region r p2.
Proof.
  intros bom [rn rb rl] [n1 a1 l1 p1] [n2 a2 l2 p2]. unfold plan_region.
  simpl. intros -> -> -> -> ->.
  do 2 eexists. split; [reflexivity|]. do 3 (split; [reflexivity|]).
  unfold within_region. simpl.
  replace (align_up 4 4096) with 4096 by reflexivity.
  replace (align_up 4 (4096 + 10)) with 4108 by reflexivity. lia.
Qed.

(** The scenario on [PATCH_A] with a code and a data segment. *)
Lemma scenario_two_segments_placed_witness :
  plan_region patch_bom PATCH_A
    [mkSegment ".text" 0 10 RX; mkSegment ".data" 0 6 RW]
  = inr [mkSegment ".text" 0x1000 10 RX; mkSegment ".data" 0x100C 6 RW].
Proof.
  destruct (scenario_two_segments_placed patch_bom PATCH_A
              (mkSegment ".text" 0 10 RX) (mkSegment ".data" 0 6 RW)
              eq_refl eq_refl eq_refl eq_refl eq_refl)
    as (p1 & p2 & Hplan & -> & -> & _).
  exact Hplan.
Defined.

(** * Further properties of the module *)

(** ** Equality is field-wise *)

(** X1: the generated [__eq__] of each of the five classes returns [True]
    exactly when the two instances agree on every field (mappings by keys
    and values, the objects of a [BOM] by their own [__eq__]); in
    particular the deprecated [bss_size_required] takes part in the
    comparison: an object rebuilt with the field set differs from the one
    that has [None]. *)
Theorem generated_eq_is_fieldwise :
  (forall a b : AssembledObject, AssembledObject___eq__ a b = true <-> a = b)
  /\ (forall a b : LinkedExecutable,
        LinkedExecutable___eq__ a b = true <-> a = b)
  /\ (forall a b : PatchRegionConfig,
        PatchRegionConfig___eq__ a b = true <-> a = b)
  /\ (forall a b : FEM, FEM___eq__ a b = true <-> a = b)
  /\ (forall a b : BOM, BOM___eq__ a b = true <-> a = b)
  /\ (forall path ff sm ss us (n : Z),
        AssembledObject___eq__
          (mkAssembledObject path ff sm ss us None)
          (mkAssembledObject path ff sm ss us (Some n)) = false)
  /\ (forall name om u ep al (n : Z),
        BOM___eq__ (mkBOM name om u None ep al)
                   (mkBOM name om u (Some n) ep al) = false).
Proof.
  split; [exact AssembledObject___eq___true|].
  split; [exact LinkedExecutable___eq___true|].
  split; [exact PatchRegionConfig___eq___true|].
  split; [exact FEM___eq___true|].
  split; [exact BOM___eq___true|].
  split.
  - intros. apply not_true_is_false. rewrite AssembledObject___eq___true.
    discriminate.
  - intros. apply not_true_is_false. rewrite BOM___eq___true. discriminate.
Qed.

(** ** When the deprecation warning is logged *)

(** X2: a construction of [AssembledObject] or [BOM] logs at most one
    warning, and logs it exactly when the field stored in the instance is
    not [None].  Passing [None] explicitly to [AssembledObject] gives the
    same result as leaving the argument out. *)
Theorem warning_iff_field_set :
  forall (path : string) (ff : BinFileType) (sm : gmap string Segment)
         (ss us : SymbolMap) (bss : Arg (option Z))
         (name : string) (om : gmap string AssembledObject)
         (u : gset string) (bbss : option Z) (ep : option string) (al : Z),
    (exists o,
        Py.returns (AssembledObject___init__ path ff sm ss us bss) o
        /\ (Py.warnings (AssembledObject___init__ path ff sm ss us bss) = []
            <-> ao_bss_size_required o = None)
        /\ (List.length
              (Py.warnings (AssembledObject___init__ path ff sm ss us bss))
            <= 1)%nat)
    /\ AssembledObject___init__ path ff sm ss us (Passed None)
       = AssembledObject___init__ path ff sm ss us Omitted
    /\ (exists b,
        Py.returns (BOM___init__ name om u (Passed bbss) ep al) b
        /\ (Py.warnings (BOM___init__ name om u (Passed bbss) ep al) = []
            <-> bom_bss_size_required b = None)
        /\ (List.length
              (Py.warnings (BOM___init__ name om u (Passed bbss) ep al))
            <= 1)%nat).
Proof.
  intros. split; [|split; [reflexivity|]].
  - rewrite AssembledObject___init___spec.
    destruct bss as [|[n|]]; eexists; (split; [reflexivity|]); simpl;
      (split; [split; intros; done | lia]).
  - rewrite BOM___init___spec.
    destruct bbss as [n|]; eexists; (split; [reflexivity|]); simpl;
      (split; [split; intros; done | lia]).
Qed.

(** ** Members of [SourceFileType] *)

(** X3: lookup by value and lookup by name both invert the member's
    attribute, a successful lookup returns the member with that value, the
    three values are distinct (no member is an alias of another), and every
    integer outside 0..2 raises [ValueError]. *)
Theorem SourceFileType_lookup_round_trip :
  (forall t : SourceFileType,
      SourceFileType___call__ (SourceFileType_value t) = inr t
      /\ SourceFileType___getitem__ (SourceFileType_name t) = inr t)
  /\ (forall (v : Z) (t : SourceFileType),
        SourceFileType___call__ v = inr t -> SourceFileType_value t = v)
  /\ (forall (name : string) (t : SourceFileType),
        SourceFileType___getitem__ name = inr t -> SourceFileType_name t = name)
  /\ NoDup (map SourceFileType_value SourceFileType_members)
  /\ (forall v : Z,
        v < 0 \/ 2 < v -> SourceFileType___call__ v = inl (ValueError v)).
Proof.
  split; [by intros []|]. split; [|split; [|split]].
  - intros v t. unfold SourceFileType___call__.
    destruct (find _ _) as [m|] eqn:Hfind; [|done].
    intros [= <-]. apply find_some in Hfind as [_ Hv].
    by apply bool_decide_eq_true in Hv.
  - intros name t. unfold SourceFileType___getitem__.
    destruct (find _ _) as [m|] eqn:Hfind; [|done].
    intros [= <-]. apply find_some in Hfind as [_ Hv].
    by apply bool_decide_eq_true in Hv.
  - apply (bool_decide_unpack _). by vm_compute.
  - intros v Hv. unfold SourceFileType___call__. simpl.
    repeat (rewrite bool_decide_eq_false_2 by lia). done.
Qed.

Lemma SourceFileType_lookup_round_trip_witness :
  SourceFileType___call__ 3 = inl (ValueError 3)
  /\ SourceFileType___call__ 1 = inr C
  /\ SourceFileType_value ASM = 2.
Proof.
  destruct SourceFileType_lookup_round_trip as (Hinv & Hval & _ & _ & Herr).
  split; [apply Herr; lia|]. split; [apply (Hinv C)|].
  apply (Hval 2 ASM). reflexivity.
Defined.

(** ** When an instance has a hash *)

Lemma collect_hashes_inr (hs : list (exn + Z)) (l : list Z) :
  collect_hashes hs = inr l <-> hs = map inr l.
Proof.
  revert l. induction hs as [|[e|h] hs IH]; intros l; simpl.
  - split; [intros [= <-]; done | by destruct l].
  - split; [done | by destruct l].
  - destruct (collect_hashes hs) as [e|l'] eqn:Hhs.
    + split; [done|]. destruct l as [|h' l]; [done|]. simpl. intros [= -> Hl].
      apply IH in Hl. done.
    + split.
      * intros [= <-]. simpl. f_equal. by apply IH.
      * destruct l as [|h' l]; [done|]. simpl. intros [= -> Hl].
        apply IH in Hl. congruence.
Qed.

Lemma collect_hashes_first_failure (pre : list Z) (e : exn)
    (post : list (exn + Z)) :
  collect_hashes (map inr pre ++ inl e :: post) = inl e.
Proof. induction pre as [|h pre IH]; simpl; [done | by rewrite IH]. Qed.

Lemma collect_hashes_map_defined {A : Type} (f : A -> exn + Z) (l : list A) :
  (exists hs, collect_hashes (map f l) = inr hs)
  <-> Forall (fun x => exists h, f x = inr h) l.
Proof.
  induction l as [|x l IH]; simpl.
  - split; [constructor | by eexists].
  - destruct (f x) as [e|h] eqn:Hx.
    + split; [by intros [hs ?]|]. intros Hall.
      apply Forall_cons in Hall as [[h Hh] _]. congruence.
    + destruct (collect_hashes (map f l)) as [e|hs] eqn:Hl.
      * split; [by intros [? ?]|]. intros Hall.
        apply Forall_cons in Hall as [_ Hall]. apply IH in Hall as [? ?].
        done.
      * split; [|by eexists]. intros _. constructor; [by eexists|].
        apply IH. by eexists.
Qed.

Section Hashable.

Variable hash_str : string -> Z.
Variable hash_int : Z -> Z.
Variable hash_bool : bool -> Z.
Variable hash_None : Z.
Variable hash_BinFileType : BinFileType -> Z.
Variable hash_LinkableSymbolType : LinkableSymbolType -> Z.
Variable hash_Segment : Segment -> exn + Z.
Variable hash_mapping :
  forall V : Type, (V -> exn + Z) -> gmap string V -> exn + Z.
Variable hash_set : gset string -> exn + Z.
Variable tuple_mix : list Z -> Z.

Local Abbreviation hash_of_symbol :=
  (hash_symbol hash_int hash_LinkableSymbolType tuple_mix).
Local Abbreviation hash_of_AssembledObject :=
  (AssembledObject___hash__ hash_str hash_int hash_None hash_BinFileType
     hash_LinkableSymbolType hash_Segment hash_mapping tuple_mix).
Local Abbreviation hash_of_LinkedExecutable :=
  (LinkedExecutable___hash__ hash_str hash_int hash_bool hash_BinFileType
     hash_LinkableSymbolType hash_Segment hash_mapping tuple_mix).
Local Abbreviation hash_of_FEM :=
  (FEM___hash__ hash_str hash_int hash_bool hash_BinFileType
     hash_LinkableSymbolType hash_Segment hash_mapping tuple_mix).
Local Abbreviation hash_of_BOM :=
  (BOM___hash__ hash_str hash_int hash_None hash_BinFileType
     hash_LinkableSymbolType hash_Segment hash_mapping hash_set tuple_mix).

Lemma hash_tuple_map_defined {A : Type} (f : A -> exn + Z) (l : list A) :
  (exists h, hash_tuple tuple_mix (map f l) = inr h)
  <-> Forall (fun x => exists h, f x = inr h) l.
Proof.
  rewrite <- collect_hashes_map_defined. unfold hash_tuple.
  destruct (collect_hashes (map f l)); split; intros [? ?]; try done;
    by eexists.
Qed.

(** X4: freezing [BOM] gives it a [__hash__], but [hash(bom)] returns a
    number exactly when the objects held in [object_map] and in
    [unresolved_symbols] are hashable.  Otherwise it raises the error of the
    first of the two, in declaration order, that is not: with a builtin
    [set] in [unresolved_symbols] every [BOM] whose mapping is hashable
    raises the set's [TypeError]. *)
Theorem BOM_hash_defined_iff_fields_hashable :
  forall b : BOM,
    ((exists h, hash_of_BOM b = inr h)
     <-> (exists hm,
            hash_mapping _ hash_of_AssembledObject (object_map b) = inr hm)
         /\ (exists hs, hash_set (bom_unresolved_symbols b) = inr hs))
    /\ (forall e,
          hash_mapping _ hash_of_AssembledObject (object_map b) = inl e ->
          hash_of_BOM b = inl e)
    /\ (forall hm e,
          hash_mapping _ hash_of_AssembledObject (object_map b) = inr hm ->
          hash_set (bom_unresolved_symbols b) = inl e ->
          hash_of_BOM b = inl e).
Proof.
  intros b. unfold BOM___hash__, hash_tuple. simpl.
  destruct (hash_mapping _ _ (object_map b)) as [em|hm];
    destruct (hash_set (bom_unresolved_symbols b)) as [es|hs]; simpl;
    (split; [|split]); try (intros; congruence).
  - split; [by intros [? ?] | by intros [[? ?] _]].
  - split; [by intros [? ?] | by intros [[? ?] _]].
  - split; [by intros [? ?] | by intros [_ [? ?]]].
  - split; [intros _; split; by eexists | intros _; by eexists].
Qed.

(** X5: [hash] of a [LinkedExecutable], and so of the [FEM] that wraps it,
    returns a number exactly when every segment of the [segments] tuple is
    hashable and the object held in [symbols] is hashable; the name of the
    [FEM] never makes its hash fail.  When a segment is unhashable, the
    error raised is that of the first such segment of the tuple. *)
Theorem FEM_hash_defined_iff_executable_hashable :
  forall f : FEM,
    ((exists h, hash_of_FEM f = inr h)
     <-> (exists h, hash_of_LinkedExecutable (executable f) = inr h))
    /\ ((exists h, hash_of_LinkedExecutable (executable f) = inr h)
        <-> Forall (fun s => exists h, hash_Segment s = inr h)
              (le_segments (executable f))
            /\ (exists hm,
                  hash_mapping _ hash_of_symbol (symbols (executable f))
                  = inr hm))
    /\ (forall pre s post e,
          le_segments (executable f) = pre ++ s :: post ->
          Forall (fun s' => exists h, hash_Segment s' = inr h) pre ->
          hash_Segment s = inl e ->
          hash_of_LinkedExecutable (executable f) = inl e
          /\ hash_of_FEM f = inl e).
Proof.
  intros [name exe]. simpl. split; [|split].
  - unfold FEM___hash__, hash_tuple at 1. simpl.
    destruct (LinkedExecutable___hash__ _ _ _ _ _ _ _ _ exe) as [e|h]; simpl.
    + split; by intros [? ?].
    + split; intros _; by eexists.
  - rewrite <- hash_tuple_map_defined.
    unfold LinkedExecutable___hash__, hash_tuple at 1. simpl.
    destruct (hash_tuple tuple_mix (map hash_Segment (le_segments exe)))
      as [es|hs];
      destruct (hash_mapping _ _ (symbols exe)) as [em|hm]; simpl.
    + split; [by intros [? ?] | by intros [[? ?] _]].
    + split; [by intros [? ?] | by intros [[? ?] _]].
    + split; [by intros [? ?] | by intros [_ [? ?]]].
    + split; [intros _; split; by eexists | intros _; by eexists].
  - intros pre s post e Hsegs Hpre Hs.
    apply collect_hashes_map_defined in Hpre as [hpre Hpre].
    apply collect_hashes_inr in Hpre.
    assert (Hexe : hash_of_LinkedExecutable exe = inl e).
    { unfold LinkedExecutable___hash__. rewrite Hsegs, map_app. simpl.
      rewrite Hpre, Hs. unfold hash_tuple at 2.
      rewrite collect_hashes_first_failure. reflexivity. }
    split; [exact Hexe|]. unfold FEM___hash__. simpl. rewrite Hexe.
    reflexivity.
Qed.

End Hashable.

(** A [BOM] whose [object_map] is an immutable mapping and whose
    [unresolved_symbols] is a builtin [set]: [hash] raises the set's
    [TypeError]. *)
Lemma BOM_hash_defined_iff_fields_hashable_witness :
  BOM___hash__ (fun s => Z.of_nat (String.length s)) id 0 (fun _ => 1)
    (fun _ => 2) (fun _ => inr 3) (fun _ _ _ => inr 7)
    (fun _ => inl (TypeError "unhashable type: 'set'"))
    (fun l => Z.of_nat (List.length l)) patch_bom
  = inl (TypeError "unhashable type: 'set'").
Proof.
  destruct (BOM_hash_defined_iff_fields_hashable
              (fun s => Z.of_nat (String.length s)) id 0 (fun _ => 1)
              (fun _ => 2) (fun _ => inr 3) (fun _ _ _ => inr 7)
              (fun _ => inl (TypeError "unhashable type: 'set'"))
              (fun l => Z.of_nat (List.length l)) patch_bom)
    as (_ & _ & Hset).
  apply (Hset 7); reflexivity.
Defined.

(** A [FEM] whose second segment is unhashable: [hash] raises that
    segment's error. *)
Lemma FEM_hash_defined_iff_executable_hashable_witness :
  FEM___hash__ (fun s => Z.of_nat (String.length s)) id (fun _ => 0)
    (fun _ => 1) (fun _ => 2)
    (fun s => if bool_decide (segment_name s = ".data")
              then inl (TypeError "unhashable segment") else inr 3)
    (fun _ _ _ => inr 7) (fun l => Z.of_nat (List.length l))
    (mkFEM "patch"
       (mkLinkedExecutable "patch.elf" ELF
          [mkSegment ".text" 0x1000 10 RX; mkSegment ".data" 0x100C 6 RW;
           mkSegment ".bss" 0x1014 0 RW] ∅ false))
  = inl (TypeError "unhashable segment").
Proof.
  destruct (FEM_hash_defined_iff_executable_hashable
              (fun s => Z.of_nat (String.length s)) id (fun _ => 0)
              (fun _ => 1) (fun _ => 2)
              (fun s => if bool_decide (segment_name s = ".data")
                        then inl (TypeError "unhashable segment") else inr 3)
              (fun _ _ _ => inr 7) (fun l => Z.of_nat (List.length l))
              (mkFEM "patch"
                 (mkLinkedExecutable "patch.elf" ELF
                    [mkSegment ".text" 0x1000 10 RX;
                     mkSegment ".data" 0x100C 6 RW;
                     mkSegment ".bss" 0x1014 0 RW] ∅ false)))
    as (_ & _ & Hfirst).
  apply (Hfirst [mkSegment ".text" 0x1000 10 RX]
           (mkSegment ".data" 0x100C 6 RW) [mkSegment ".bss" 0x1014 0 RW]).
  - reflexivity.
  - constructor; [|constructor]. exists 3. reflexivity.
  - reflexivity.
Defined.

(** ** Assignment to a frozen instance *)


